(** * Semaphore subgraph client: query builder and response normaliser

    Shallow embedding of [packages/subgraph/src/subgraph.ts]: the two query
    templates of [Subgraph.getGroups] and [Subgraph.getGroup], the filter
    clause of [getGroups], and the reshaping of the decoded response. *)

From Stdlib Require Import String Ascii List Bool Arith ZArith Lia.
Import ListNotations.
Open Scope list_scope.
Open Scope string_scope.
Set Warnings "-register-all".

(** ** Text *)

(** JavaScript text is modelled as [string]; a template literal
    [`a${x}b`] is the concatenation [a ++ x ++ b]. *)

(** The double-quote character, as one-character text. *)
Definition dq : string := String "034"%char EmptyString.

(** The line break that separates two lines of a template literal. *)
Definition nl : string := String "010"%char EmptyString.

(** [Array.prototype.join]: the elements separated by [sep]; the empty array
    joins to the empty text. *)
Fixpoint join (sep : string) (l : list string) : string :=
  match l with
  | [] => EmptyString
  | [x] => x
  | x :: rest => x ++ sep ++ join sep rest
  end.

(** [Array.prototype.push]: the array with [x] added at its end. *)
Definition push {A : Type} (l : list A) (x : A) : list A := (l ++ [x])%list.

(** Truthiness of a text ([if (admin)]): the empty text is falsy, every
    other text is truthy. An absent field reads as [undefined], which is
    falsy; a present object (a [Date], the [filters] record) is truthy. *)
Definition truthy_string (s : string) : bool :=
  match s with
  | EmptyString => false
  | String _ _ => true
  end.

(** A destructuring default, [const { members = false } = options]. *)
Definition with_default {A : Type} (d : A) (o : option A) : A :=
  match o with
  | None => d
  | Some a => a
  end.

(** [needle] occurs in [s] as a contiguous run of characters. *)
Definition occurs_in (needle s : string) : Prop :=
  exists before after, s = before ++ needle ++ after.

(** [String.prototype.startsWith]. *)
Fixpoint starts_with (needle s : string) : bool :=
  match needle, s with
  | EmptyString, _ => true
  | String _ _, EmptyString => false
  | String a needle', String b s' => andb (Ascii.eqb a b) (starts_with needle' s')
  end.

(** The executable form of [occurs_in] ([String.prototype.includes]). *)
Fixpoint includes (needle s : string) : bool :=
  if starts_with needle s then true
  else match s with
       | EmptyString => false
       | String _ rest => includes needle rest
       end.

(** ** Decoded JSON values *)

(** A value as [JSON.parse] builds it, together with [undefined], which
    property reads produce. An object lists its own properties in insertion
    order. A decoded body is a tree: no two positions share an object. *)
Inductive value : Type :=
| VUndefined
| VNull
| VBool (b : bool)
| VNum (n : Z)
| VStr (s : string)
| VArr (items : list value)
| VObj (fields : list (string * value)).

(** The errors a call can end with: a [TypeError] raised by the runtime, or
    the rejection of the transport, which the client does not catch. *)
Inductive exn : Type :=
| TypeError
| TransportError (reason : string).

(** The outcome of a call: a returned value or a thrown error. *)
Inductive result (A : Type) : Type :=
| Ok (a : A)
| Throw (e : exn).

Arguments Ok {A} a.
Arguments Throw {A} e.

Definition bind {A B : Type} (c : result A) (k : A -> result B) : result B :=
  match c with
  | Ok a => k a
  | Throw e => Throw e
  end.

Notation "x <- c ;; k" := (bind c (fun x => k))
  (at level 61, c at next level, right associativity).

(** Runs [f] on the elements from left to right and stops at the first
    throw: the callback loop of [Array.prototype.map] and the body of a
    [for ... of] over an array. *)
Fixpoint mapM {A B : Type} (f : A -> result B) (l : list A) : result (list B) :=
  match l with
  | [] => Ok []
  | a :: rest =>
      b <- f a ;;
      bs <- mapM f rest ;;
      Ok (b :: bs)
  end.

(** The own property [key] of an object, if it has one. *)
Fixpoint lookup_field (key : string) (fields : list (string * value)) : option value :=
  match fields with
  | [] => None
  | (k, v) :: rest => if String.eqb k key then Some v else lookup_field key rest
  end.

(** Assignment to the property [key] of an object: an existing property
    keeps its place and takes the new value, a new one is added last. *)
Fixpoint set_field (key : string) (x : value) (fields : list (string * value))
  : list (string * value) :=
  match fields with
  | [] => [(key, x)]
  | (k, v) :: rest =>
      if String.eqb k key then (k, x) :: rest else (k, v) :: set_field key x rest
  end.

(** A property read [v.key], for the two keys the client reads ([members],
    [identityCommitment]), which no prototype defines: reading from
    [undefined] or [null] throws, an object gives its own property or
    [undefined], every other value gives [undefined]. *)
Definition get_prop (v : value) (key : string) : result value :=
  match v with
  | VUndefined | VNull => Throw TypeError
  | VObj fields => Ok (with_default VUndefined (lookup_field key fields))
  | VBool _ | VNum _ | VStr _ | VArr _ => Ok VUndefined
  end.

(** The call [v.map(f)]: only an array has a callable [map]; on [undefined]
    and [null] the read of [map] throws, on any other decoded value [map] is
    not a function and the call throws. *)
Definition call_map (v : value) (f : value -> result value) : result value :=
  match v with
  | VArr items => items' <- mapM f items ;; Ok (VArr items')
  | _ => Throw TypeError
  end.

(** A property write [v.key = x] in strict code, giving the value that [v]
    names afterwards. Writing to [undefined], [null] or a primitive throws.
    An array keeps its items; the named property it would gain has no place
    in [value], and [normalise_reaches_objects_only] shows that the client
    never writes to one. *)
Definition set_prop (v : value) (key : string) (x : value) : result value :=
  match v with
  | VObj fields => Ok (VObj (set_field key x fields))
  | VArr items => Ok (VArr items)
  | VUndefined | VNull | VBool _ | VNum _ | VStr _ => Throw TypeError
  end.

(** [groups[i]]: the element, or [undefined] past the end. *)
Definition index (groups : list value) (i : nat) : value :=
  nth i groups VUndefined.

(** ** Reading a selection set *)

(** The lexical units of the selection sets that the templates write. *)
Inductive token : Type :=
| TBraceOpen
| TBraceClose
| TParenOpen
| TParenClose
| TColon
| TName (name : string).

Definition is_blank (c : ascii) : bool :=
  orb (Ascii.eqb c " "%char)
      (orb (Ascii.eqb c "010"%char)
           (orb (Ascii.eqb c "009"%char) (Ascii.eqb c "013"%char))).

Definition punctuation (c : ascii) : option token :=
  if Ascii.eqb c "{"%char then Some TBraceOpen
  else if Ascii.eqb c "}"%char then Some TBraceClose
  else if Ascii.eqb c "("%char then Some TParenOpen
  else if Ascii.eqb c ")"%char then Some TParenClose
  else if Ascii.eqb c ":"%char then Some TColon
  else None.

(** Ends the name read so far, if there is one. *)
Definition close_name (word : string) (rest : list token) : list token :=
  match word with
  | EmptyString => rest
  | String _ _ => TName word :: rest
  end.

(** [word] is the name being read, in reading order. *)
Fixpoint lex_from (word : string) (s : string) : list token :=
  match s with
  | EmptyString => close_name word []
  | String c rest =>
      if is_blank c then close_name word (lex_from EmptyString rest)
      else match punctuation c with
           | Some t => close_name word (t :: lex_from EmptyString rest)
           | None => lex_from (word ++ String c EmptyString) rest
           end
  end.

Definition lex (s : string) : list token := lex_from EmptyString s.

(** A requested field: its name, its arguments, and the fields requested
    beneath it (none for a scalar). *)
Inductive selection : Type :=
| Field (name : string) (args : list (string * string)) (sub : list selection).

(** An optional argument list with one argument, [(key: value)]. *)
Definition read_args (ts : list token) : list (string * string) * list token :=
  match ts with
  | TParenOpen :: TName k :: TColon :: TName v :: TParenClose :: rest => ([(k, v)], rest)
  | _ => ([], ts)
  end.

(** Reads fields up to and including the closing brace of their set; gives
    the fields and the tokens that follow the brace. *)
Fixpoint read_fields (fuel : nat) (ts : list token)
  : option (list selection * list token) :=
  match fuel with
  | O => None
  | S fuel' =>
      match ts with
      | TBraceClose :: rest => Some ([], rest)
      | TName name :: rest =>
          let (args, after_args) := read_args rest in
          match after_args with
          | TBraceOpen :: inner =>
              match read_fields fuel' inner with
              | Some (sub, after_sub) =>
                  match read_fields fuel' after_sub with
                  | Some (more, after) => Some (Field name args sub :: more, after)
                  | None => None
                  end
              | None => None
              end
          | _ =>
              match read_fields fuel' after_args with
              | Some (more, after) => Some (Field name args [] :: more, after)
              | None => None
              end
          end
      | _ => None
      end
  end.

(** The fields of a selection set written as text, [{ ... }] with nothing
    after the closing brace. *)
Definition read_selection_set (s : string) : option (list selection) :=
  match lex s with
  | TBraceOpen :: ts =>
      match read_fields (S (List.length ts)) ts with
      | Some (fields, []) => Some fields
      | _ => None
      end
  | _ => None
  end.

Definition scalar (name : string) : selection := Field name [] [].

(** [options.members == true], for an optional flag. *)
Definition requested (flag : option bool) : bool :=
  match flag with
  | Some true => true
  | _ => false
  end.

(** The members sub-selection: the identifier field only, ordered by index. *)
Definition members_selection : selection :=
  Field "members" [("orderBy", "index")] [scalar "identityCommitment"].

(** The verified-proofs sub-selection, ordered by timestamp. *)
Definition verifiedProofs_selection : selection :=
  Field "verifiedProofs" [("orderBy", "timestamp")]
    [scalar "signal"; scalar "merkleTreeRoot"; scalar "externalNullifier";
     scalar "nullifierHash"; scalar "timestamp"].

(** The fields a group query is to request, by the two flags. *)
Definition expected_selection (with_members with_proofs : bool) : list selection :=
  ([scalar "id";
    Field "merkleTree" []
      [scalar "root"; scalar "depth"; scalar "zeroValue"; scalar "numberOfLeaves"];
    scalar "admin"]
   ++ (if with_members then [members_selection] else [])
   ++ (if with_proofs then [verifiedProofs_selection] else []))%list.

(** The text both templates write after the entity scope, from the brace
    that opens the fields of a group to the brace that closes them. *)
Definition selection_text (with_members with_proofs : bool) : string :=
  "{" ++ nl ++
  "                        id" ++ nl ++
  "                        merkleTree {" ++ nl ++
  "                            root" ++ nl ++
  "                            depth" ++ nl ++
  "                            zeroValue" ++ nl ++
  "                            numberOfLeaves" ++ nl ++
  "                        }" ++ nl ++
  "                        admin" ++ nl ++
  "                        " ++
  (if with_members
   then "members(orderBy: index) {" ++ nl ++
        "                            identityCommitment" ++ nl ++
        "                        }"
   else EmptyString) ++ nl ++
  "                        " ++
  (if with_proofs
   then "verifiedProofs(orderBy: timestamp) {" ++ nl ++
        "                            signal" ++ nl ++
        "                            merkleTreeRoot" ++ nl ++
        "                            externalNullifier" ++ nl ++
        "                            nullifierHash" ++ nl ++
        "                            timestamp" ++ nl ++
        "                        }"
   else EmptyString) ++ nl ++
  "                    }".

(** ** Options *)

Section Client.

(** [Date] and [jsDateToGraphqlDate] come from [./types] and [./utils]; the
    builder only interpolates the result of the latter into a template, so it
    is taken here as the text that the interpolation produces. *)
Variable Date : Type.
Variable jsDateToGraphqlDate : Date -> string.

(** [GroupOptions.filters]: every field is optional. *)
Record GroupFilters : Type := mkFilters {
  admin : option string;
  timestamp : option Date;
  timestampGte : option Date;
  timestampLte : option Date
}.

(** [GroupOptions], after [checkParameter] has accepted it: the two flags
    are booleans when present. *)
Record GroupOptions : Type := mkOptions {
  members : option bool;
  verifiedProofs : option bool;
  filters : option GroupFilters
}.

(** [options = {}]. *)
Definition default_options : GroupOptions := mkOptions None None None.

(** ** The filter clause of [getGroups] *)

(** The local [filterFragments] of [getGroups] once the [if (admin)]
    statement and the [if (timestamp) ... else if (timestampGte) ... else if
    (timestampLte)] chain have run, for a present [options.filters]. *)
Definition filterFragments (fs : GroupFilters) : list string :=
  let filterFragments : list string := [] in
  let filterFragments :=
    match admin fs with
    | Some a =>
        if truthy_string a
        then push filterFragments ("admin: " ++ dq ++ a ++ dq)
        else filterFragments
    | None => filterFragments
    end in
  let filterFragments :=
    match timestamp fs, timestampGte fs, timestampLte fs with
    | Some t, _, _ =>
        push filterFragments ("timestamp: " ++ dq ++ jsDateToGraphqlDate t ++ dq)
    | None, Some t, _ =>
        push filterFragments ("timestamp_gte: " ++ dq ++ jsDateToGraphqlDate t ++ dq)
    | None, None, Some t =>
        push filterFragments ("timestamp_lte: " ++ dq ++ jsDateToGraphqlDate t ++ dq)
    | None, None, None => filterFragments
    end in
  filterFragments.

(** The local [filtersQuery] of [getGroups] when the template is reached. *)
Definition filtersQuery (options : GroupOptions) : string :=
  let filtersQuery := EmptyString in
  match filters options with
  | Some fs =>
      if (0 <? List.length (filterFragments fs))%nat
      then "(where: {" ++ join ", " (filterFragments fs) ++ "})"
      else filtersQuery
  | None => filtersQuery
  end.

(** ** The two query templates *)

(** The template literal of [getGroups], line by line as in the source. *)
Definition getGroups_query (options : GroupOptions) : string :=
  let members := with_default false (members options) in
  let verifiedProofs := with_default false (verifiedProofs options) in
  "{" ++ nl ++
  "                    groups " ++ filtersQuery options ++ " {" ++ nl ++
  "                        id" ++ nl ++
  "                        merkleTree {" ++ nl ++
  "                            root" ++ nl ++
  "                            depth" ++ nl ++
  "                            zeroValue" ++ nl ++
  "                            numberOfLeaves" ++ nl ++
  "                        }" ++ nl ++
  "                        admin" ++ nl ++
  "                        " ++
  (if Bool.eqb members true
   then "members(orderBy: index) {" ++ nl ++
        "                            identityCommitment" ++ nl ++
        "                        }"
   else EmptyString) ++ nl ++
  "                        " ++
  (if Bool.eqb verifiedProofs true
   then "verifiedProofs(orderBy: timestamp) {" ++ nl ++
        "                            signal" ++ nl ++
        "                            merkleTreeRoot" ++ nl ++
        "                            externalNullifier" ++ nl ++
        "                            nullifierHash" ++ nl ++
        "                            timestamp" ++ nl ++
        "                        }"
   else EmptyString) ++ nl ++
  "                    }" ++ nl ++
  "                }".

(** The template literal of [getGroup], line by line as in the source. *)
Definition getGroup_query (groupId : string) (options : GroupOptions) : string :=
  let members := with_default false (members options) in
  let verifiedProofs := with_default false (verifiedProofs options) in
  "{" ++ nl ++
  "                    groups(where: { id: " ++ dq ++ groupId ++ dq ++ " }) {" ++ nl ++
  "                        id" ++ nl ++
  "                        merkleTree {" ++ nl ++
  "                            root" ++ nl ++
  "                            depth" ++ nl ++
  "                            zeroValue" ++ nl ++
  "                            numberOfLeaves" ++ nl ++
  "                        }" ++ nl ++
  "                        admin" ++ nl ++
  "                        " ++
  (if Bool.eqb members true
   then "members(orderBy: index) {" ++ nl ++
        "                            identityCommitment" ++ nl ++
        "                        }"
   else EmptyString) ++ nl ++
  "                        " ++
  (if Bool.eqb verifiedProofs true
   then "verifiedProofs(orderBy: timestamp) {" ++ nl ++
        "                            signal" ++ nl ++
        "                            merkleTreeRoot" ++ nl ++
        "                            externalNullifier" ++ nl ++
        "                            nullifierHash" ++ nl ++
        "                            timestamp" ++ nl ++
        "                        }"
   else EmptyString) ++ nl ++
  "                    }" ++ nl ++
  "                }".

(** ** Requests *)

(** The object sent as [data], before [JSON.stringify] turns it into text. *)
Record RequestData : Type := mkData { query : string }.

Record AxiosRequestConfig : Type := mkConfig {
  method : string;
  data : RequestData
}.

(** The [config] that [getGroups] builds. *)
Definition getGroups_config (options : GroupOptions) : AxiosRequestConfig :=
  mkConfig "post" (mkData (getGroups_query options)).

(** The [config] that [getGroup] builds. *)
Definition getGroup_config (groupId : string) (options : GroupOptions)
  : AxiosRequestConfig :=
  mkConfig "post" (mkData (getGroup_query groupId options)).

(** ** Normalisation *)

(** The statement [group.members = group.members.map((member) =>
    member.identityCommitment)], giving the object that [group] names once
    the statement has run. *)
Definition normalise (group : value) : result value :=
  ms <- get_prop group "members" ;;
  ids <- call_map ms (fun member => get_prop member "identityCommitment") ;;
  set_prop group "members" ids.

(** What [getGroups] does with the decoded [groups] array. *)
Definition getGroups_normalise (members : bool) (groups : list value)
  : result (list value) :=
  if members
  then mapM normalise groups
  else Ok groups.

(** What [getGroup] does with the decoded [groups] array: [groups[0]] is
    rewritten in place when [members] is set, and [groups[0]] is returned. *)
Definition getGroup_normalise (members : bool) (groups : list value)
  : result value :=
  if members
  then normalise (index groups 0)
  else Ok (index groups 0).

(** ** The client *)

Record Subgraph : Type := mkSubgraph { _url : string }.

(** Modelled from the spec: the body that [./request] resolves to is a
    mapping that contains a [groups] sequence. *)
Record Response : Type := mkResponse { groups : list value }.

(** [./request], which posts [config] to the endpoint and resolves to the
    decoded body or rejects. *)
Variable request : string -> AxiosRequestConfig -> result Response.

(** [Subgraph.getGroups], for options that [checkParameter] accepts. *)
Definition getGroups (this : Subgraph) (options : GroupOptions)
  : result (list value) :=
  let members := with_default false (members options) in
  let config := getGroups_config options in
  response <- request (_url this) config ;;
  getGroups_normalise members (groups response).

(** [Subgraph.getGroup], for arguments that [checkParameter] accepts. *)
Definition getGroup (this : Subgraph) (groupId : string) (options : GroupOptions)
  : result value :=
  let members := with_default false (members options) in
  let config := getGroup_config groupId options in
  response <- request (_url this) config ;;
  getGroup_normalise members (groups response).

(** [./getURL], which resolves the name of a supported network to its
    endpoint and throws for any other name ([None]). *)
Variable getURL : string -> option string.

(** [new Subgraph(network)], for a [network] that [checkParameter] accepts;
    [None] when [getURL] throws. *)
Definition constructor (network : option string) : option Subgraph :=
  let network := with_default "arbitrum" network in
  match getURL network with
  | Some resolved => Some (mkSubgraph resolved)
  | None => None
  end.

(** The getter [url]. *)
Definition url (this : Subgraph) : string := _url this.

(** ** The builders, statement by statement *)

(** What a call can read and write while it builds its [config]: the object
    [this], the [options] object it was handed, and the two locals of
    [getGroups] that are written after their declaration, [filtersQuery]
    (reassigned) and [filterFragments] (an array that grows by [push]). The
    two objects outlive the call; the cells of the locals hold anything when
    the call starts. *)
Record Memory : Type := mkMemory {
  this_ref : Subgraph;
  options_ref : GroupOptions;
  filtersQuery_cell : string;
  filterFragments_cell : list string
}.

(** [filtersQuery = text]. *)
Definition assign_filtersQuery (text : string) (m : Memory) : Memory :=
  mkMemory (this_ref m) (options_ref m) text (filterFragments_cell m).

(** [filterFragments = fragments]. *)
Definition assign_filterFragments (fragments : list string) (m : Memory) : Memory :=
  mkMemory (this_ref m) (options_ref m) (filtersQuery_cell m) fragments.

(** [filterFragments.push(fragment)]. *)
Definition push_filterFragments (fragment : string) (m : Memory) : Memory :=
  assign_filterFragments (push (filterFragments_cell m) fragment) m.

(** The template literal of [getGroups] over the values its three
    interpolations read when it is evaluated. *)
Definition getGroups_template
  (filtersQuery : string) (members verifiedProofs : bool) : string :=
  "{" ++ nl ++
  "                    groups " ++ filtersQuery ++ " {" ++ nl ++
  "                        id" ++ nl ++
  "                        merkleTree {" ++ nl ++
  "                            root" ++ nl ++
  "                            depth" ++ nl ++
  "                            zeroValue" ++ nl ++
  "                            numberOfLeaves" ++ nl ++
  "                        }" ++ nl ++
  "                        admin" ++ nl ++
  "                        " ++
  (if Bool.eqb members true
   then "members(orderBy: index) {" ++ nl ++
        "                            identityCommitment" ++ nl ++
        "                        }"
   else EmptyString) ++ nl ++
  "                        " ++
  (if Bool.eqb verifiedProofs true
   then "verifiedProofs(orderBy: timestamp) {" ++ nl ++
        "                            signal" ++ nl ++
        "                            merkleTreeRoot" ++ nl ++
        "                            externalNullifier" ++ nl ++
        "                            nullifierHash" ++ nl ++
        "                            timestamp" ++ nl ++
        "                        }"
   else EmptyString) ++ nl ++
  "                    }" ++ nl ++
  "                }".

(** [getGroups] from its first statement to the end of [const config = ...],
    one memory per statement: the built [config] and the memory the call
    leaves. *)
Definition getGroups_build (m0 : Memory) : AxiosRequestConfig * Memory :=
  let options := options_ref m0 in
  let members := with_default false (members options) in
  let verifiedProofs := with_default false (verifiedProofs options) in
  let m1 := assign_filtersQuery EmptyString m0 in
  let m5 :=
    match filters (options_ref m1) with
    | Some fs =>
        let m2 := assign_filterFragments [] m1 in
        let m3 :=
          match admin fs with
          | Some a =>
              if truthy_string a
              then push_filterFragments ("admin: " ++ dq ++ a ++ dq) m2
              else m2
          | None => m2
          end in
        let m4 :=
          match timestamp fs, timestampGte fs, timestampLte fs with
          | Some t, _, _ =>
              push_filterFragments ("timestamp: " ++ dq ++ jsDateToGraphqlDate t ++ dq) m3
          | None, Some t, _ =>
              push_filterFragments ("timestamp_gte: " ++ dq ++ jsDateToGraphqlDate t ++ dq) m3
          | None, None, Some t =>
              push_filterFragments ("timestamp_lte: " ++ dq ++ jsDateToGraphqlDate t ++ dq) m3
          | None, None, None => m3
          end in
        if (0 <? List.length (filterFragments_cell m4))%nat
        then assign_filtersQuery
               ("(where: {" ++ join ", " (filterFragments_cell m4) ++ "})") m4
        else m4
    | None => m1
    end in
  (mkConfig "post"
     (mkData (getGroups_template (filtersQuery_cell m5) members verifiedProofs)),
   m5).

(** [getGroup] from its first statement to the end of [const config = ...]:
    it declares constants only and writes nothing. *)
Definition getGroup_build (groupId : string) (m0 : Memory)
  : AxiosRequestConfig * Memory :=
  let options := options_ref m0 in
  (getGroup_config groupId options, m0).

(** ** Views used in the statements *)

(** What the [if (admin)] statement adds to [filterFragments]. *)
Definition admin_fragments (a : option string) : list string :=
  match a with
  | Some (String c rest) => ["admin: " ++ dq ++ String c rest ++ dq]
  | _ => []
  end.

(** What the [if (timestamp) ... else if ... else if ...] chain adds. *)
Definition time_fragments (fs : GroupFilters) : list string :=
  match timestamp fs, timestampGte fs, timestampLte fs with
  | Some t, _, _ => ["timestamp: " ++ dq ++ jsDateToGraphqlDate t ++ dq]
  | None, Some t, _ => ["timestamp_gte: " ++ dq ++ jsDateToGraphqlDate t ++ dq]
  | None, None, Some t => ["timestamp_lte: " ++ dq ++ jsDateToGraphqlDate t ++ dq]
  | None, None, None => []
  end.

(** The clause written for a given array of fragments. *)
Definition clause_of (fragments : list string) : string :=
  match fragments with
  | [] => EmptyString
  | _ :: _ => "(where: {" ++ join ", " fragments ++ "})"
  end.

(** The raw form of one member: a record with the identifier as its only
    field. *)
Definition wrapper (identifier : value) : value :=
  VObj [("identityCommitment", identifier)].

(** The [members] property of the object [group] is the array [items]. *)
Definition has_members (group : value) (items : list value) : Prop :=
  exists fields,
    group = VObj fields /\ lookup_field "members" fields = Some (VArr items).

(** [after] is an object with the properties of the object [before], in the
    same order, and with the same value for every property but [members]. *)
Definition same_but_members (before after : value) : Prop :=
  exists fields fields',
    before = VObj fields /\ after = VObj fields'
    /\ map fst fields' = map fst fields
    /\ forall key, key <> "members" ->
         lookup_field key fields' = lookup_field key fields.

(** What [member.identityCommitment] gives for a member that can be read:
    the own property of an object, [undefined] for anything else. *)
Definition identifier (member : value) : value :=
  match member with
  | VObj fields => with_default VUndefined (lookup_field "identityCommitment" fields)
  | _ => VUndefined
  end.

(** A member whose properties can be read: anything but [undefined] and
    [null]. *)
Definition readable (member : value) : bool :=
  match member with
  | VUndefined | VNull => false
  | _ => true
  end.

(** A group that the members rewrite accepts: an object whose [members] is
    an array of readable entries. *)
Definition well_formed (group : value) : bool :=
  match group with
  | VObj fields =>
      match lookup_field "members" fields with
      | Some (VArr items) => forallb readable items
      | _ => false
      end
  | _ => false
  end.

(** A well-formed group with each member replaced by its identifier. *)
Definition unwrapped (group : value) : value :=
  match group with
  | VObj fields =>
      match lookup_field "members" fields with
      | Some (VArr items) => VObj (set_field "members" (VArr (map identifier items)) fields)
      | _ => group
      end
  | _ => group
  end.

(** ** Concrete inputs *)

(** A date is given below by the text its encoding produces. *)
Definition literal_date (d : string) : string := d.

(** A transport that answers every request with an empty [groups]. *)
Definition no_groups (url : string) (config : AxiosRequestConfig) : result Response :=
  Ok (mkResponse []).

(** The raw group of the normalisation example. *)
Definition raw_example : value :=
  VObj [("id", VStr "1");
        ("members", VArr [wrapper (VStr "5"); wrapper (VStr "9")]);
        ("admin", VStr "0xabc")].

(** A transport that rejects every request. *)
Definition rejecting (url : string) (config : AxiosRequestConfig) : result Response :=
  Throw (TransportError "timeout").

(** A transport that answers at one endpoint only. *)
Definition only_at (endpoint : string) (url : string) (config : AxiosRequestConfig)
  : result Response :=
  if String.eqb url endpoint then Ok (mkResponse []) else Throw (TransportError "unreachable").

(** An endpoint table with one network. *)
Definition one_network (name : string) : option string :=
  if String.eqb name "arbitrum" then Some "https://example.org/arbitrum" else None.

(** A decoded group without a [members] property. *)
Definition bare_example : value :=
  VObj [("id", VStr "2"); ("admin", VStr "0xdef")].

(** ** Facts about text *)

Lemma append_assoc (a b c : string) : (a ++ b) ++ c = a ++ b ++ c.
Proof.
  induction a as [|ch a IH]; simpl.
  - reflexivity.
  - now rewrite IH.
Qed.

Lemma starts_with_append (needle rest : string) :
  starts_with needle (needle ++ rest) = true.
Proof.
  induction needle as [|ch needle IH]; simpl.
  - reflexivity.
  - now rewrite Ascii.eqb_refl.
Qed.

Lemma starts_with_split (needle s : string) :
  starts_with needle s = true -> exists rest, s = needle ++ rest.
Proof.
  revert s; induction needle as [|ch needle IH]; intros s H.
  - now exists s.
  - destruct s as [|c s]; simpl in H; [discriminate|].
    apply andb_true_iff in H as [Hc Hs].
    apply Ascii.eqb_eq in Hc as ->.
    destruct (IH _ Hs) as [rest ->].
    now exists rest.
Qed.

Lemma includes_unfold (needle s : string) :
  includes needle s =
  if starts_with needle s then true
  else match s with
       | EmptyString => false
       | String _ rest => includes needle rest
       end.
Proof. destruct s; reflexivity. Qed.

Lemma includes_complete (needle s : string) :
  occurs_in needle s -> includes needle s = true.
Proof.
  intros (before & after & ->).
  induction before as [|ch before IH].
  - rewrite includes_unfold; simpl. now rewrite starts_with_append.
  - rewrite includes_unfold.
    destruct (starts_with needle (String ch before ++ needle ++ after));
      [reflexivity|].
    exact IH.
Qed.

Lemma includes_sound (needle s : string) :
  includes needle s = true -> occurs_in needle s.
Proof.
  induction s as [|ch s IH]; rewrite includes_unfold.
  - destruct (starts_with needle EmptyString) eqn:P; [|discriminate].
    intros _. destruct (starts_with_split _ _ P) as [rest E].
    exists EmptyString, rest. exact E.
  - destruct (starts_with needle (String ch s)) eqn:P.
    + intros _. destruct (starts_with_split _ _ P) as [rest E].
      exists EmptyString, rest. exact E.
    + intros H. destruct (IH H) as (before & after & ->).
      now exists (String ch before), after.
Qed.

Lemma absent_by_search (needle s : string) :
  includes needle s = false -> ~ occurs_in needle s.
Proof.
  intros H O. apply includes_complete in O. congruence.
Qed.

(** ** Facts about the filter clause *)

Lemma filterFragments_split (fs : GroupFilters) :
  filterFragments fs = (admin_fragments (admin fs) ++ time_fragments fs)%list.
Proof.
  unfold filterFragments, time_fragments, push.
  destruct (admin fs) as [[|c a]|];
    destruct (timestamp fs), (timestampGte fs), (timestampLte fs); reflexivity.
Qed.

Lemma filtersQuery_clause (options : GroupOptions) (fs : GroupFilters) :
  filters options = Some fs ->
  filtersQuery options = clause_of (filterFragments fs).
Proof.
  intros E. unfold filtersQuery. rewrite E.
  destruct (filterFragments fs); reflexivity.
Qed.

Lemma filtersQuery_absent (options : GroupOptions) :
  filters options = None -> filtersQuery options = EmptyString.
Proof. intros E. unfold filtersQuery. now rewrite E. Qed.

(** ** Facts about the templates *)

Lemma getGroups_query_shape (options : GroupOptions) :
  getGroups_query options =
  "{" ++ nl ++
  "                    groups " ++ filtersQuery options ++ " " ++
  selection_text (requested (members options)) (requested (verifiedProofs options)) ++ nl ++
  "                }".
Proof.
  unfold getGroups_query.
  destruct (members options) as [[|]|], (verifiedProofs options) as [[|]|];
    reflexivity.
Qed.

Lemma getGroup_query_shape (groupId : string) (options : GroupOptions) :
  getGroup_query groupId options =
  "{" ++ nl ++
  "                    groups(where: { id: " ++ dq ++ groupId ++ dq ++ " }) " ++
  selection_text (requested (members options)) (requested (verifiedProofs options)) ++ nl ++
  "                }".
Proof.
  unfold getGroup_query.
  destruct (members options) as [[|]|], (verifiedProofs options) as [[|]|];
    reflexivity.
Qed.

Lemma selection_text_reads (with_members with_proofs : bool) :
  read_selection_set (selection_text with_members with_proofs)
  = Some (expected_selection with_members with_proofs).
Proof. destruct with_members, with_proofs; vm_compute; reflexivity. Qed.


(** C3. With [timestamp], [timestampGte] and [timestampLte] all set, the
    fragments and the clause are those of [timestamp] alone; with only
    [timestampGte] and [timestampLte] set, those of [timestampGte] alone; with
    none set, no time fragment is written. In every case the chain adds at
    most one fragment. *)
Theorem timestamp_precedence
  (a : option string) (T1 T2 T3 : Date) (m v : option bool) :
  let exact := mkFilters a (Some T1) (Some T2) (Some T3) in
  let range := mkFilters a None (Some T2) (Some T3) in
  let untimed := mkFilters a None None None in
  let from_T1 := "timestamp: " ++ dq ++ jsDateToGraphqlDate T1 ++ dq in
  let from_T2 := "timestamp_gte: " ++ dq ++ jsDateToGraphqlDate T2 ++ dq in
  (filterFragments exact = (admin_fragments a ++ [from_T1])%list
   /\ filtersQuery (mkOptions m v (Some exact))
      = "(where: {" ++ join ", " (admin_fragments a ++ [from_T1])%list ++ "})")
  /\ (filterFragments range = (admin_fragments a ++ [from_T2])%list
      /\ filtersQuery (mkOptions m v (Some range))
         = "(where: {" ++ join ", " (admin_fragments a ++ [from_T2])%list ++ "})")
  /\ (filterFragments untimed = admin_fragments a
      /\ filtersQuery (mkOptions m v (Some untimed)) = clause_of (admin_fragments a))
  /\ (forall fs : GroupFilters,
        exists timed,
          filterFragments fs = (admin_fragments (admin fs) ++ timed)%list
          /\ List.length timed <= 1).
Proof.
  cbv zeta.
  repeat split.
  - now rewrite filterFragments_split.
  - erewrite filtersQuery_clause by reflexivity; rewrite filterFragments_split.
    destruct a as [[|c a]|]; reflexivity.
  - now rewrite filterFragments_split.
  - erewrite filtersQuery_clause by reflexivity; rewrite filterFragments_split.
    destruct a as [[|c a]|]; reflexivity.
  - rewrite filterFragments_split. apply app_nil_r.
  - erewrite filtersQuery_clause by reflexivity; rewrite filterFragments_split.
    simpl. now rewrite app_nil_r.
  - intros fs. exists (time_fragments fs).
    split; [apply filterFragments_split|].
    unfold time_fragments.
    destruct (timestamp fs), (timestampGte fs), (timestampLte fs); simpl; lia.
Qed.

(** C4. When [options.filters] is absent, or present without adding a
    fragment, [filtersQuery] is the empty text, the query is the one built
    without filters, and the word [where] occurs nowhere in it. *)
Theorem no_filter_no_clause (options : GroupOptions) :
  (filters options = None
   \/ exists fs, filters options = Some fs /\ filterFragments fs = []) ->
  filtersQuery options = EmptyString
  /\ getGroups_query options
     = getGroups_query (mkOptions (members options) (verifiedProofs options) None)
  /\ getGroups_query options =
     "{" ++ nl ++
     "                    groups  " ++
     selection_text (requested (members options)) (requested (verifiedProofs options)) ++ nl ++
     "                }"
  /\ ~ occurs_in "where" (getGroups_query options).
Proof.
  intros H.
  assert (E : filtersQuery options = EmptyString).
  { destruct H as [H | (fs & H & F)].
    - now apply filtersQuery_absent.
    - rewrite (filtersQuery_clause _ _ H), F. reflexivity. }
  assert (Q : getGroups_query options =
     "{" ++ nl ++
     "                    groups  " ++
     selection_text (requested (members options)) (requested (verifiedProofs options)) ++ nl ++
     "                }").
  { rewrite getGroups_query_shape, E. reflexivity. }
  split; [exact E|]. split; [|split].
  - rewrite Q, getGroups_query_shape. reflexivity.
  - exact Q.
  - rewrite Q. apply absent_by_search.
    destruct (requested (members options)), (requested (verifiedProofs options));
      vm_compute; reflexivity.
Qed.

(** C5, amended. When [admin] is present and not the empty text, its
    equality fragment is the first fragment and is written in the clause,
    whatever the three timestamp fields hold. *)
Theorem admin_fragment_included (fs : GroupFilters) (a : string) :
  admin fs = Some a ->
  a <> EmptyString ->
  let fragment := "admin: " ++ dq ++ a ++ dq in
  filterFragments fs = fragment :: time_fragments fs
  /\ (forall options, filters options = Some fs ->
        filtersQuery options
        = "(where: {" ++ join ", " (fragment :: time_fragments fs) ++ "})")
  /\ (forall t g l,
        In fragment (filterFragments (mkFilters (Some a) t g l))).
Proof.
  intros E N fragment.
  assert (F : forall t g l,
             filterFragments (mkFilters (Some a) t g l)
             = fragment :: time_fragments (mkFilters (Some a) t g l)).
  { intros t g l. rewrite filterFragments_split. simpl.
    destruct a as [|c a]; [now elim N | reflexivity]. }
  assert (F' : filterFragments fs = fragment :: time_fragments fs).
  { destruct fs as [a' t g l]. simpl in E. subst a'. apply F. }
  split; [exact F'|]. split.
  - intros options O. rewrite (filtersQuery_clause _ _ O), F'. reflexivity.
  - intros t g l. rewrite F. now left.
Qed.


Lemma getGroups_build_config (m : Memory) :
  fst (getGroups_build m) = getGroups_config (options_ref m).
Proof.
  destruct m as [this options stale_query stale_fragments].
  unfold getGroups_build, getGroups_config, getGroups_query, getGroups_template,
    filtersQuery, filterFragments, push_filterFragments, assign_filterFragments,
    assign_filtersQuery, push.
  cbn [options_ref this_ref filtersQuery_cell filterFragments_cell fst].
  destruct (filters options) as [fs|]; [|reflexivity].
  destruct (admin fs) as [[|c a]|];
    destruct (timestamp fs), (timestampGte fs), (timestampLte fs); reflexivity.
Qed.

Lemma getGroups_build_keeps_objects (m : Memory) :
  this_ref (snd (getGroups_build m)) = this_ref m
  /\ options_ref (snd (getGroups_build m)) = options_ref m.
Proof.
  destruct m as [this options stale_query stale_fragments].
  unfold getGroups_build, push_filterFragments, assign_filterFragments,
    assign_filtersQuery.
  cbn [options_ref this_ref filtersQuery_cell filterFragments_cell snd].
  destruct (filters options) as [fs|]; [|split; reflexivity].
  destruct (admin fs) as [[|c a]|];
    destruct (timestamp fs), (timestampGte fs), (timestampLte fs);
    split; reflexivity.
Qed.


(** C10. [groupId] is written into the query as it is, between the two
    quotes of the id literal; a [groupId] that holds a double quote puts
    that quote, unescaped, inside the literal. *)
Theorem groupId_verbatim (groupId : string) (options : GroupOptions) :
  occurs_in ("groups(where: { id: " ++ dq ++ groupId ++ dq ++ " })")
            (getGroup_query groupId options)
  /\ (let quoted := "a" ++ dq ++ "b" in
      occurs_in dq quoted
      /\ occurs_in ("groups(where: { id: " ++ dq ++ "a" ++ dq ++ "b" ++ dq ++ " })")
                   (getGroup_query quoted options)).
Proof.
  assert (G : forall g,
             occurs_in ("groups(where: { id: " ++ dq ++ g ++ dq ++ " })")
                       (getGroup_query g options)).
  { intros g. rewrite getGroup_query_shape.
    exists ("{" ++ nl ++ "                    "),
      (" " ++ selection_text (requested (members options))
                             (requested (verifiedProofs options)) ++ nl ++
       "                }").
    change (" })" ) with (" }" ++ ")").
    simpl. rewrite !append_assoc. reflexivity. }
  split; [apply G|].
  cbv zeta. split.
  - exists "a", "b". reflexivity.
  - apply (G ("a" ++ dq ++ "b")).
Qed.

(** ** Facts about normalisation *)

Lemma lookup_set_same (key : string) (x : value) (fields : list (string * value)) :
  lookup_field key (set_field key x fields) = Some x.
Proof.
  induction fields as [|[k v] rest IH]; simpl.
  - now rewrite String.eqb_refl.
  - destruct (String.eqb k key) eqn:E; simpl; rewrite E; [reflexivity | exact IH].
Qed.

Lemma lookup_set_other (key k : string) (x : value) (fields : list (string * value)) :
  key <> k ->
  lookup_field key (set_field k x fields) = lookup_field key fields.
Proof.
  intros N.
  assert (K : String.eqb k key = false).
  { apply String.eqb_neq. congruence. }
  induction fields as [|[k0 v] rest IH]; simpl.
  - now rewrite K.
  - destruct (String.eqb k0 k) eqn:E; simpl.
    + apply String.eqb_eq in E. subst k0. now rewrite K.
    + destruct (String.eqb k0 key); [reflexivity | exact IH].
Qed.

Lemma keys_set_present (k : string) (x y : value) (fields : list (string * value)) :
  lookup_field k fields = Some y ->
  map fst (set_field k x fields) = map fst fields.
Proof.
  induction fields as [|[k0 v] rest IH]; simpl; [discriminate|].
  destruct (String.eqb k0 k); simpl; [reflexivity|].
  intros H. now rewrite IH.
Qed.

(** [normalise] returns only for an object whose [members] is an array
    without [null] entries; in particular the write of [set_prop] only ever
    reaches an object. *)
Lemma normalise_reaches_objects_only (group group' : value) :
  normalise group = Ok group' ->
  exists fields items ids,
    group = VObj fields
    /\ lookup_field "members" fields = Some (VArr items)
    /\ mapM (fun member => get_prop member "identityCommitment") items = Ok ids
    /\ group' = VObj (set_field "members" (VArr ids) fields).
Proof.
  unfold normalise.
  destruct group as [| | | | | |fields]; simpl; try discriminate.
  destruct (lookup_field "members" fields) as [[| | | | |items|]|] eqn:L;
    simpl; try discriminate.
  destruct (mapM _ items) as [ids|] eqn:M; simpl; [|discriminate].
  intros [= <-]. now exists fields, items, ids.
Qed.

Lemma normalise_frame (group group' : value) :
  normalise group = Ok group' -> same_but_members group group'.
Proof.
  intros H.
  destruct (normalise_reaches_objects_only _ _ H) as (fields & items & ids & -> & L & _ & ->).
  exists fields, (set_field "members" (VArr ids) fields).
  repeat split.
  - eapply keys_set_present; eassumption.
  - intros key N. now apply lookup_set_other.
Qed.

Lemma unwrap_wrappers (ids : list value) :
  mapM (fun member => get_prop member "identityCommitment") (map wrapper ids) = Ok ids.
Proof.
  induction ids as [|x ids IH]; simpl.
  - reflexivity.
  - rewrite IH. reflexivity.
Qed.

Lemma normalise_wrapped (group : value) (ids : list value) :
  has_members group (map wrapper ids) ->
  exists group', normalise group = Ok group' /\ has_members group' ids.
Proof.
  intros (fields & -> & L).
  exists (VObj (set_field "members" (VArr ids) fields)). split.
  - unfold normalise. simpl. rewrite L. simpl. rewrite unwrap_wrappers. reflexivity.
  - eexists; split; [reflexivity|]. apply lookup_set_same.
Qed.

(** C1, members not requested: an empty [groups] gives [undefined]; members
    requested: the read of [groups[0].members] throws a [TypeError]. *)
Theorem getGroup_empty_groups
  (this : Subgraph) (groupId : string)
  (proofs : option bool) (fs : option GroupFilters) :
  (forall url config, request url config = Ok (mkResponse [])) ->
  getGroup this groupId (mkOptions (Some true) proofs fs) = Throw TypeError
  /\ getGroup this groupId (mkOptions (Some false) proofs fs) = Ok VUndefined
  /\ getGroup this groupId (mkOptions None proofs fs) = Ok VUndefined.
Proof.
  intros R. unfold getGroup. rewrite !R. repeat split.
Qed.

(** C8. With members requested, every raw group whose [members] is a
    sequence of single-field wrapper records comes back with [members] equal
    to the sequence of the bare identifiers, in the same order: in the result
    of [getGroups], position by position, and in the result of [getGroup] for
    the first group. *)
Theorem members_unwrapped (groups : list value) (identifiers : list (list value)) :
  Forall2 (fun group ids => has_members group (map wrapper ids)) groups identifiers ->
  (exists out,
     getGroups_normalise true groups = Ok out
     /\ Forall2 has_members out identifiers)
  /\ (forall ids others, identifiers = ids :: others ->
        exists group',
          getGroup_normalise true groups = Ok group' /\ has_members group' ids).
Proof.
  intros H. split.
  - unfold getGroups_normalise.
    induction H as [|group ids groups identifiers Hg _ IH].
    + exists []. split; [reflexivity | constructor].
    + destruct (normalise_wrapped _ _ Hg) as (group' & N & M).
      destruct IH as (out & O & F).
      exists (group' :: out). split.
      * simpl. rewrite N. simpl. rewrite O. reflexivity.
      * now constructor.
  - intros ids others E. subst identifiers.
    inversion H as [|group ids' rest others' Hg _]; subst.
    unfold getGroup_normalise, index. simpl.
    now apply normalise_wrapped.
Qed.

(** C9. Without members requested the decoded groups are returned as they
    are. With members requested, whatever is returned has the groups in the
    order received, each an object with the same properties in the same
    order and the same value for every property but [members]. *)
Theorem normalisation_frame (groups : list value) :
  getGroups_normalise false groups = Ok groups
  /\ getGroup_normalise false groups = Ok (index groups 0)
  /\ (forall out, getGroups_normalise true groups = Ok out ->
        Forall2 same_but_members groups out)
  /\ (forall group', getGroup_normalise true groups = Ok group' ->
        same_but_members (index groups 0) group').
Proof.
  split; [reflexivity|]. split; [reflexivity|]. split.
  - unfold getGroups_normalise.
    induction groups as [|group groups IH]; simpl; intros out H.
    + injection H as <-. constructor.
    + destruct (normalise group) as [group'|] eqn:N; simpl in H; [|discriminate].
      destruct (mapM normalise groups) as [rest|] eqn:M; simpl in H; [|discriminate].
      injection H as <-. constructor.
      * now apply normalise_frame.
      * now apply IH.
  - unfold getGroup_normalise. intros group'. apply normalise_frame.
Qed.

(** ** More facts about normalisation *)

Lemma read_identifiers (items : list value) :
  mapM (fun member => get_prop member "identityCommitment") items
  = if forallb readable items then Ok (map identifier items) else Throw TypeError.
Proof.
  induction items as [|member items IH]; simpl.
  - reflexivity.
  - destruct member; simpl; try reflexivity;
      rewrite IH; destruct (forallb readable items); reflexivity.
Qed.

Lemma normalise_outcome (group : value) :
  normalise group
  = if well_formed group then Ok (unwrapped group) else Throw TypeError.
Proof.
  unfold normalise.
  destruct group as [| | | | | |fields]; simpl; try reflexivity.
  destruct (lookup_field "members" fields) as [[| | | | |items|]|];
    simpl; try reflexivity.
  rewrite read_identifiers.
  destruct (forallb readable items); reflexivity.
Qed.

Lemma getGroups_normalise_outcome (groups : list value) :
  getGroups_normalise true groups
  = if forallb well_formed groups then Ok (map unwrapped groups) else Throw TypeError.
Proof.
  unfold getGroups_normalise.
  induction groups as [|group groups IH]; simpl.
  - reflexivity.
  - rewrite normalise_outcome.
    destruct (well_formed group); simpl; [|reflexivity].
    rewrite IH. destruct (forallb well_formed groups); reflexivity.
Qed.

Lemma normalisation_throws_TypeError
  (members : bool) (groups : list value) (e : exn) :
  (getGroups_normalise members groups = Throw e -> e = TypeError)
  /\ (getGroup_normalise members groups = Throw e -> e = TypeError).
Proof.
  destruct members.
  - split.
    + rewrite getGroups_normalise_outcome.
      destruct (forallb well_formed groups); congruence.
    + unfold getGroup_normalise. rewrite normalise_outcome.
      destruct (well_formed (index groups 0)); congruence.
  - split; discriminate.
Qed.

(** X1. With members requested, [getGroups] gets through the decoded groups
    exactly when every group is an object whose [members] is an array without
    [undefined] or [null] entries; in every other case it throws a
    [TypeError]. One ill-formed group anywhere makes the whole call throw. *)
Theorem getGroups_normalise_succeeds_iff (groups : list value) :
  ((exists out, getGroups_normalise true groups = Ok out)
   <-> forallb well_formed groups = true)
  /\ (forallb well_formed groups = false
      <-> getGroups_normalise true groups = Throw TypeError)
  /\ (forall before group after,
        groups = (before ++ group :: after)%list ->
        well_formed group = false ->
        getGroups_normalise true groups = Throw TypeError).
Proof.
  rewrite getGroups_normalise_outcome.
  split; [|split].
  - destruct (forallb well_formed groups); split.
    + reflexivity.
    + intros _. eexists. reflexivity.
    + intros [out H]. discriminate H.
    + discriminate.
  - destruct (forallb well_formed groups); split;
      try reflexivity; discriminate.
  - intros before group after -> W.
    rewrite forallb_app. simpl. rewrite W.
    rewrite andb_false_r. reflexivity.
Qed.

(** X2. With members requested, what [getGroups] returns has one group for
    each decoded group, in order, and the [members] of each is the array of
    the [identityCommitment] of the raw members, of the same length and in the
    same order; a raw member without that property, or one that is not an
    object, gives [undefined] at its place instead of an error. *)
Theorem normalised_members_are_identifiers (groups out : list value) :
  getGroups_normalise true groups = Ok out ->
  List.length out = List.length groups
  /\ Forall2
       (fun group group' =>
          exists items,
            has_members group items
            /\ has_members group' (map identifier items)
            /\ forallb readable items = true)
       groups out.
Proof.
  rewrite getGroups_normalise_outcome.
  destruct (forallb well_formed groups) eqn:W; [|discriminate].
  intros [= <-]. split; [apply length_map|].
  induction groups as [|group groups IH]; simpl; constructor.
  - simpl in W. apply andb_true_iff in W as [Wg _].
    destruct group as [| | | | | |fields]; simpl in Wg; try discriminate.
    destruct (lookup_field "members" fields) as [[| | | | |items|]|] eqn:L;
      try discriminate.
    exists items. split; [|split].
    + now exists fields.
    + simpl. rewrite L. eexists. split; [reflexivity|]. apply lookup_set_same.
    + exact Wg.
  - apply IH. simpl in W. now apply andb_true_iff in W as [_ W].
Qed.

(** X3. [getGroup] looks at the first decoded group only. Its outcome for a
    sequence is its outcome for the first group alone, so an ill-formed later
    group, on which [getGroups] throws, leaves it unaffected; and on a
    non-empty sequence with members requested it returns exactly when the
    first group is well formed. *)
Theorem getGroup_reads_first_group_only
  (members : bool) (group : value) (others : list value) :
  getGroup_normalise members (group :: others) = getGroup_normalise members [group]
  /\ getGroup_normalise true (group :: others)
     = (if well_formed group then Ok (unwrapped group) else Throw TypeError)
  /\ (well_formed group = true ->
      forallb well_formed others = false ->
      getGroup_normalise true (group :: others) = Ok (unwrapped group)
      /\ getGroups_normalise true (group :: others) = Throw TypeError).
Proof.
  split; [reflexivity|].
  assert (G : getGroup_normalise true (group :: others)
              = if well_formed group then Ok (unwrapped group) else Throw TypeError).
  { unfold getGroup_normalise, index. simpl. apply normalise_outcome. }
  split; [exact G|].
  intros Wg Wo. split.
  - rewrite G, Wg. reflexivity.
  - rewrite getGroups_normalise_outcome. simpl. rewrite Wg, Wo. reflexivity.
Qed.

(** X4. Whenever [getGroups] gets through a non-empty sequence of decoded
    groups, [getGroup] on the same sequence and with the same flag returns
    the first group of that result. *)
Theorem getGroup_is_first_of_getGroups
  (members : bool) (groups out : list value) :
  getGroups_normalise members groups = Ok out ->
  groups <> [] ->
  getGroup_normalise members groups = Ok (index out 0).
Proof.
  intros H N.
  destruct groups as [|group others]; [now elim N|].
  destruct members.
  - rewrite getGroups_normalise_outcome in H.
    destruct (forallb well_formed (group :: others)) eqn:W; [|discriminate].
    injection H as <-.
    simpl in W. apply andb_true_iff in W as [Wg _].
    unfold getGroup_normalise, index. simpl.
    rewrite normalise_outcome, Wg. reflexivity.
  - simpl in H. injection H as <-. reflexivity.
Qed.

(** X5. A rejection of the transport is what the call ends with, unchanged;
    and a call ends with a transport error only when the transport rejected
    with that error: everything the client itself throws after the response
    is a [TypeError]. *)
Theorem transport_errors_come_from_transport
  (this : Subgraph) (groupId : string) (options : GroupOptions) :
  (forall e,
     request (_url this) (getGroups_config options) = Throw e ->
     getGroups this options = Throw e)
  /\ (forall e,
        request (_url this) (getGroup_config groupId options) = Throw e ->
        getGroup this groupId options = Throw e)
  /\ (forall reason,
        getGroups this options = Throw (TransportError reason) ->
        request (_url this) (getGroups_config options) = Throw (TransportError reason))
  /\ (forall reason,
        getGroup this groupId options = Throw (TransportError reason) ->
        request (_url this) (getGroup_config groupId options)
        = Throw (TransportError reason)).
Proof.
  unfold getGroups, getGroup.
  split; [|split; [|split]].
  - intros e ->. reflexivity.
  - intros e ->. reflexivity.
  - intros reason.
    destruct (request (_url this) (getGroups_config options)) as [response|e];
      simpl; [|congruence].
    intros H. apply normalisation_throws_TypeError in H. discriminate H.
  - intros reason.
    destruct (request (_url this) (getGroup_config groupId options)) as [response|e];
      simpl; [|congruence].
    intros H. apply normalisation_throws_TypeError in H. discriminate H.
Qed.

(** ** More facts about the queries *)

Lemma join_first (sep x : string) (rest : list string) :
  join sep (x :: rest)
  = x ++ match rest with
         | [] => EmptyString
         | _ :: _ => sep ++ join sep rest
         end.
Proof.
  destruct rest; simpl; [|reflexivity].
  induction x as [|c x IH]; simpl; [reflexivity | now rewrite <- IH].
Qed.

Lemma append_length (a b : string) :
  String.length (a ++ b) = String.length a + String.length b.
Proof.
  induction a as [|c a IH]; simpl; [reflexivity | now rewrite IH].
Qed.

Lemma append_cancel_l (a x y : string) : a ++ x = a ++ y -> x = y.
Proof.
  induction a as [|c a IH]; simpl; intros H.
  - exact H.
  - injection H as H. now apply IH.
Qed.

Lemma append_cancel_r (r x y : string) : x ++ r = y ++ r -> x = y.
Proof.
  revert y. induction x as [|c x IH]; intros [|d y] H; simpl in H.
  - reflexivity.
  - apply (f_equal String.length) in H. simpl in H.
    rewrite append_length in H. lia.
  - apply (f_equal String.length) in H. simpl in H.
    rewrite append_length in H. lia.
  - injection H as -> H. f_equal. now apply IH.
Qed.

Lemma requested_default (flag : option bool) :
  with_default false flag = requested flag.
Proof. destruct flag as [[|]|]; reflexivity. Qed.

(** X6. [getGroups] writes a filter clause exactly when [options.filters] is
    present and holds a non-empty [admin] or at least one of the three
    timestamps; an empty clause [(where: {})] is never written. *)
Theorem filter_clause_emitted_iff (options : GroupOptions) :
  (filtersQuery options = EmptyString
   <-> (filters options = None
        \/ exists fs,
             filters options = Some fs
             /\ (admin fs = None \/ admin fs = Some EmptyString)
             /\ timestamp fs = None
             /\ timestampGte fs = None
             /\ timestampLte fs = None))
  /\ filtersQuery options <> "(where: {})"
  /\ (filtersQuery options <> EmptyString ->
      exists inside,
        inside <> EmptyString
        /\ filtersQuery options = "(where: {" ++ inside ++ "})").
Proof.
  destruct (filters options) as [fs|] eqn:F.
  - rewrite (filtersQuery_clause _ _ F), filterFragments_split.
    unfold time_fragments.
    split; [|split].
    + split.
      * intros H. right. exists fs. split; [reflexivity|].
        destruct (admin fs) as [[|c a]|];
          destruct (timestamp fs), (timestampGte fs), (timestampLte fs);
          simpl in H; try discriminate H; auto.
      * intros [H|(fs' & E & A & T & G & L)]; [discriminate H|].
        injection E as <-. rewrite T, G, L.
        destruct A as [-> | ->]; reflexivity.
    + destruct (admin fs) as [[|c a]|];
        destruct (timestamp fs), (timestampGte fs), (timestampLte fs);
        simpl; discriminate.
    + intros N.
      destruct (admin fs) as [[|c a]|];
        destruct (timestamp fs), (timestampGte fs), (timestampLte fs);
        simpl in N; try (now elim N);
        match goal with
        | |- exists _, _ /\ clause_of ?l = _ =>
            exists (join ", " l); split; [simpl; discriminate | reflexivity]
        end.
  - rewrite (filtersQuery_absent _ F).
    split; [|split].
    + split; [now left | reflexivity].
    + discriminate.
    + intros N. now elim N.
Qed.

(** X7. A non-empty [admin] is written into the collection query as it is,
    unescaped, and always as the first predicate: the text opens with
    [groups (where: {admin: ] and a quote, then [admin], then the closing
    quote, then the time predicate if there is one, then the selection set. *)
Theorem admin_written_first_verbatim
  (options : GroupOptions) (fs : GroupFilters) (a : string) :
  filters options = Some fs ->
  admin fs = Some a ->
  a <> EmptyString ->
  getGroups_query options =
    ("{" ++ nl ++ "                    groups (where: {admin: " ++ dq) ++ a ++ dq ++
    match time_fragments fs with
    | [] => EmptyString
    | _ :: _ => ", " ++ join ", " (time_fragments fs)
    end ++
    "}) " ++
    selection_text (requested (members options)) (requested (verifiedProofs options)) ++
    nl ++ "                }".
Proof.
  intros F A N.
  rewrite getGroups_query_shape, (filtersQuery_clause _ _ F), filterFragments_split, A.
  destruct a as [|c a]; [now elim N|].
  cbn [admin_fragments app clause_of].
  rewrite join_first.
  rewrite !append_assoc. simpl. rewrite !append_assoc.
  reflexivity.
Qed.

(** X8. For given options the single-group query determines [groupId]: two
    ids give the same query text only when they are the same text. *)
Theorem getGroup_query_injective
  (groupId1 groupId2 : string) (options : GroupOptions) :
  getGroup_query groupId1 options = getGroup_query groupId2 options ->
  groupId1 = groupId2.
Proof.
  rewrite !getGroup_query_shape. intros H.
  apply (append_cancel_l "{") in H.
  apply append_cancel_l in H.
  apply (append_cancel_l "                    groups(where: { id: ") in H.
  apply append_cancel_l in H.
  now apply append_cancel_r in H.
Qed.

(** X9. The options reach the request and the result only through three
    things: whether [members] is exactly [true], whether [verifiedProofs] is
    exactly [true], and the filter clause. Options that agree on these give
    the same queries and the same results, so an unset flag and a flag set to
    [false] cannot be told apart. *)
Theorem options_matter_through_flags_and_clause
  (this : Subgraph) (groupId : string) (options1 options2 : GroupOptions) :
  requested (members options1) = requested (members options2) ->
  requested (verifiedProofs options1) = requested (verifiedProofs options2) ->
  (filtersQuery options1 = filtersQuery options2 ->
   getGroups_query options1 = getGroups_query options2
   /\ getGroups this options1 = getGroups this options2)
  /\ getGroup_query groupId options1 = getGroup_query groupId options2
  /\ getGroup this groupId options1 = getGroup this groupId options2.
Proof.
  intros M V.
  assert (Q1 : getGroup_query groupId options1 = getGroup_query groupId options2).
  { rewrite !getGroup_query_shape, M, V. reflexivity. }
  split; [|split].
  - intros F.
    assert (Q : getGroups_query options1 = getGroups_query options2).
    { rewrite !getGroups_query_shape, M, V, F. reflexivity. }
    split; [exact Q|].
    unfold getGroups, getGroups_config.
    rewrite Q, !requested_default, M. reflexivity.
  - exact Q1.
  - unfold getGroup, getGroup_config.
    rewrite Q1, !requested_default, M. reflexivity.
Qed.

End Client.

Arguments mkFilters {Date} admin timestamp timestampGte timestampLte.
Arguments mkOptions {Date} members verifiedProofs filters.
Arguments admin {Date} g.
Arguments timestamp {Date} g.
Arguments timestampGte {Date} g.
Arguments timestampLte {Date} g.
Arguments members {Date} g.
Arguments verifiedProofs {Date} g.
Arguments filters {Date} g.
Arguments filterFragments {Date} jsDateToGraphqlDate fs.
Arguments filtersQuery {Date} jsDateToGraphqlDate options.
Arguments getGroups_query {Date} jsDateToGraphqlDate options.
Arguments getGroup_query {Date} groupId options.
Arguments getGroups_config {Date} jsDateToGraphqlDate options.
Arguments getGroup_config {Date} groupId options.
Arguments getGroups {Date} jsDateToGraphqlDate request this options.
Arguments getGroup {Date} request this groupId options.
Arguments mkMemory {Date} this_ref options_ref filtersQuery_cell filterFragments_cell.
Arguments this_ref {Date} m.
Arguments options_ref {Date} m.
Arguments getGroups_build {Date} jsDateToGraphqlDate m0.
Arguments getGroup_build {Date} groupId m0.

(** ** The endpoint *)

(** X10. Construction fails exactly when the network name, [arbitrum] when
    none is given, has no endpoint. Otherwise the getter [url] gives the
    resolved endpoint, and the outcome of [getGroups] and of [getGroup]
    depends on the transport only through its answer to one request: the
    built [config] posted to that endpoint. *)
Theorem requests_go_to_resolved_endpoint
  {Date : Type} (jsDateToGraphqlDate : Date -> string)
  (getURL : string -> option string)
  (request1 request2 : string -> AxiosRequestConfig -> result Response)
  (network : option string) (groupId : string) (options : GroupOptions Date) :
  (constructor getURL network = None
   <-> getURL (with_default "arbitrum" network) = None)
  /\ (forall resolved,
        getURL (with_default "arbitrum" network) = Some resolved ->
        exists this,
          constructor getURL network = Some this
          /\ url this = resolved
          /\ (request1 resolved (getGroups_config jsDateToGraphqlDate options)
              = request2 resolved (getGroups_config jsDateToGraphqlDate options) ->
              getGroups jsDateToGraphqlDate request1 this options
              = getGroups jsDateToGraphqlDate request2 this options)
          /\ (request1 resolved (getGroup_config groupId options)
              = request2 resolved (getGroup_config groupId options) ->
              getGroup request1 this groupId options
              = getGroup request2 this groupId options)).
Proof.
  unfold constructor. split.
  - destruct (getURL (with_default "arbitrum" network)); split;
      try reflexivity; discriminate.
  - intros resolved ->. eexists. split; [reflexivity|]. split; [reflexivity|].
    split; intros E; unfold getGroups, getGroup; simpl; now rewrite E.
Qed.

(** ** Concrete runs *)

Example normalise_example :
  getGroups_normalise true [raw_example; raw_example]
  = Ok [VObj [("id", VStr "1"); ("members", VArr [VStr "5"; VStr "9"]); ("admin", VStr "0xabc")];
        VObj [("id", VStr "1"); ("members", VArr [VStr "5"; VStr "9"]); ("admin", VStr "0xabc")]]
  /\ getGroup_normalise true [raw_example]
     = Ok (VObj [("id", VStr "1"); ("members", VArr [VStr "5"; VStr "9"]); ("admin", VStr "0xabc")]).
Proof. split; reflexivity. Qed.

Example filter_clause_example :
  filtersQuery literal_date
    (mkOptions (Some true) None (Some (mkFilters (Some "0xabc") None None None)))
  = "(where: {admin: " ++ dq ++ "0xabc" ++ dq ++ "})"
  /\ filtersQuery literal_date
       (mkOptions None None
          (Some (mkFilters (Some "0xabc") None (Some "1700000000") (Some "1800000000"))))
     = "(where: {admin: " ++ dq ++ "0xabc" ++ dq ++ ", timestamp_gte: " ++ dq ++ "1700000000" ++ dq ++ "})".
Proof. split; reflexivity. Qed.

Lemma getGroup_empty_groups_witness :
  (forall url config, no_groups url config = Ok (mkResponse []))
  /\ getGroup no_groups (mkSubgraph "https://example.org/subgraph")
       "missing-id" (mkOptions (Date := string) (Some true) None None) = Throw TypeError
  /\ getGroup no_groups (mkSubgraph "https://example.org/subgraph")
       "missing-id" (mkOptions (Date := string) (Some false) None None) = Ok VUndefined
  /\ getGroup no_groups (mkSubgraph "https://example.org/subgraph")
       "missing-id" (mkOptions (Date := string) None None None) = Ok VUndefined.
Proof.
  split.
  - intros url config. reflexivity.
  - apply (getGroup_empty_groups string no_groups).
    intros url config. reflexivity.
Defined.

Lemma no_filter_no_clause_witness :
  let options :=
    mkOptions (Date := string) (Some true) None
      (Some (mkFilters (Some EmptyString) None None None)) in
  (filters options = None
   \/ exists fs, filters options = Some fs
                 /\ filterFragments literal_date fs = [])
  /\ filtersQuery literal_date options = EmptyString
  /\ ~ occurs_in "where" (getGroups_query literal_date options).
Proof.
  cbv zeta.
  assert (H : filters
                (mkOptions (Date := string) (Some true) None
                   (Some (mkFilters (Some EmptyString) None None None))) = None
              \/ exists fs,
                   filters
                     (mkOptions (Date := string) (Some true) None
                        (Some (mkFilters (Some EmptyString) None None None))) = Some fs
                   /\ filterFragments literal_date fs = []).
  { right. eexists. split; reflexivity. }
  split; [exact H|].
  destruct (no_filter_no_clause string literal_date _ H) as (E & _ & _ & A).
  split; [exact E | exact A].
Defined.

(** C5, as stated, fails for the empty text: [if (admin)] takes it for
    absent, so no admin fragment is written, with or without a timestamp. *)
Lemma admin_empty_not_included :
  let untimed := mkFilters (Date := string) (Some EmptyString) None None None in
  let timed := mkFilters (Some EmptyString) (Some "1700000000") None None in
  admin untimed = Some EmptyString
  /\ filterFragments literal_date untimed = []
  /\ filtersQuery literal_date (mkOptions None None (Some untimed)) = EmptyString
  /\ ~ In ("admin: " ++ dq ++ EmptyString ++ dq) (filterFragments literal_date timed)
  /\ filtersQuery literal_date (mkOptions None None (Some timed))
     = "(where: {timestamp: " ++ dq ++ "1700000000" ++ dq ++ "})"
  /\ ~ occurs_in ("admin: " ++ dq ++ EmptyString ++ dq)
         (filtersQuery literal_date (mkOptions None None (Some timed))).
Proof.
  cbv zeta. repeat split.
  - intros [H|[]]. discriminate H.
  - apply absent_by_search. vm_compute. reflexivity.
Qed.

Lemma admin_fragment_included_witness :
  let fs := mkFilters (Date := string) (Some "0xabc") None (Some "1700000000") None in
  admin fs = Some "0xabc"
  /\ "0xabc" <> EmptyString
  /\ filterFragments literal_date fs
     = ["admin: " ++ dq ++ "0xabc" ++ dq; "timestamp_gte: " ++ dq ++ "1700000000" ++ dq].
Proof.
  cbv zeta.
  split; [reflexivity|]. split; [discriminate|].
  apply (admin_fragment_included string literal_date
           (mkFilters (Some "0xabc") None (Some "1700000000") None) "0xabc");
    [reflexivity | discriminate].
Defined.


Lemma members_unwrapped_witness :
  Forall2 (fun group ids => has_members group (map wrapper ids))
    [raw_example] [[VStr "5"; VStr "9"]]
  /\ (exists out,
        getGroups_normalise true [raw_example] = Ok out
        /\ Forall2 has_members out [[VStr "5"; VStr "9"]])
  /\ (exists group',
        getGroup_normalise true [raw_example] = Ok group'
        /\ has_members group' [VStr "5"; VStr "9"]).
Proof.
  assert (H : Forall2 (fun group ids => has_members group (map wrapper ids))
                [raw_example] [[VStr "5"; VStr "9"]]).
  { constructor; [|constructor]. eexists. split; reflexivity. }
  split; [exact H|].
  destruct (members_unwrapped [raw_example] [[VStr "5"; VStr "9"]] H) as (A & B).
  split; [exact A|]. exact (B _ _ eq_refl).
Defined.

Lemma normalisation_frame_witness :
  getGroups_normalise true [raw_example]
  = Ok [VObj [("id", VStr "1"); ("members", VArr [VStr "5"; VStr "9"]); ("admin", VStr "0xabc")]]
  /\ Forall2 same_but_members [raw_example]
       [VObj [("id", VStr "1"); ("members", VArr [VStr "5"; VStr "9"]); ("admin", VStr "0xabc")]].
Proof.
  split; [reflexivity|].
  destruct (normalisation_frame [raw_example]) as (_ & _ & F & _).
  apply F. reflexivity.
Defined.

Lemma getGroups_normalise_succeeds_iff_witness :
  [raw_example; bare_example; raw_example]
  = ([raw_example] ++ bare_example :: [raw_example])%list
  /\ well_formed bare_example = false
  /\ getGroups_normalise true [raw_example; bare_example; raw_example] = Throw TypeError.
Proof.
  split; [reflexivity|]. split; [reflexivity|].
  destruct (getGroups_normalise_succeeds_iff [raw_example; bare_example; raw_example])
    as (_ & _ & H).
  apply (H [raw_example] bare_example [raw_example]); reflexivity.
Defined.

Lemma normalised_members_are_identifiers_witness :
  let raw :=
    VObj [("members",
           VArr [wrapper (VStr "5"); VObj [("index", VNum 1)]; VStr "9"])] in
  let flat := VObj [("members", VArr [VStr "5"; VUndefined; VUndefined])] in
  getGroups_normalise true [raw] = Ok [flat]
  /\ List.length [flat] = List.length [raw]
  /\ Forall2
       (fun group group' =>
          exists items,
            has_members group items
            /\ has_members group' (map identifier items)
            /\ forallb readable items = true)
       [raw] [flat].
Proof.
  cbv zeta. split; [reflexivity|].
  apply (normalised_members_are_identifiers
           [VObj [("members",
                   VArr [wrapper (VStr "5"); VObj [("index", VNum 1)]; VStr "9"])]]).
  reflexivity.
Defined.

Lemma getGroup_reads_first_group_only_witness :
  well_formed raw_example = true
  /\ forallb well_formed [bare_example] = false
  /\ getGroup_normalise true [raw_example; bare_example] = Ok (unwrapped raw_example)
  /\ getGroups_normalise true [raw_example; bare_example] = Throw TypeError.
Proof.
  split; [reflexivity|]. split; [reflexivity|].
  destruct (getGroup_reads_first_group_only true raw_example [bare_example])
    as (_ & _ & H).
  apply H; reflexivity.
Defined.

Lemma getGroup_is_first_of_getGroups_witness :
  getGroups_normalise true [raw_example; raw_example]
  = Ok [unwrapped raw_example; unwrapped raw_example]
  /\ [raw_example; raw_example] <> []
  /\ getGroup_normalise true [raw_example; raw_example]
     = Ok (index [unwrapped raw_example; unwrapped raw_example] 0).
Proof.
  split; [reflexivity|]. split; [discriminate|].
  apply (getGroup_is_first_of_getGroups true [raw_example; raw_example]);
    [reflexivity | discriminate].
Defined.

Lemma transport_errors_come_from_transport_witness :
  let this := mkSubgraph "https://example.org/subgraph" in
  let options := mkOptions (Date := string) (Some true) None None in
  rejecting (_url this) (getGroups_config literal_date options)
  = Throw (TransportError "timeout")
  /\ getGroups literal_date rejecting this options = Throw (TransportError "timeout").
Proof.
  cbv zeta. split; [reflexivity|].
  destruct (transport_errors_come_from_transport string literal_date rejecting
              (mkSubgraph "https://example.org/subgraph") "1"
              (mkOptions (Some true) None None)) as (H & _).
  apply H. reflexivity.
Defined.

Lemma filter_clause_emitted_iff_witness :
  let options :=
    mkOptions (Date := string) None None
      (Some (mkFilters None None None (Some "1800000000"))) in
  filtersQuery literal_date options <> EmptyString
  /\ exists inside,
       inside <> EmptyString
       /\ filtersQuery literal_date options = "(where: {" ++ inside ++ "})".
Proof.
  cbv zeta.
  assert (N : filtersQuery literal_date
                (mkOptions (Date := string) None None
                   (Some (mkFilters None None None (Some "1800000000"))))
              <> EmptyString) by discriminate.
  split; [exact N|].
  destruct (filter_clause_emitted_iff string literal_date
              (mkOptions None None
                 (Some (mkFilters None None None (Some "1800000000")))))
    as (_ & _ & H).
  exact (H N).
Defined.

Lemma admin_written_first_verbatim_witness :
  let quoted := "0x" ++ dq ++ "abc" in
  let fs := mkFilters (Date := string) (Some quoted) None None (Some "1800000000") in
  let options := mkOptions None None (Some fs) in
  filters options = Some fs
  /\ admin fs = Some quoted
  /\ quoted <> EmptyString
  /\ getGroups_query literal_date options =
       ("{" ++ nl ++ "                    groups (where: {admin: " ++ dq) ++ quoted ++ dq ++
       (", " ++ "timestamp_lte: " ++ dq ++ "1800000000" ++ dq) ++
       "}) " ++ selection_text false false ++ nl ++ "                }".
Proof.
  cbv zeta.
  split; [reflexivity|]. split; [reflexivity|]. split; [discriminate|].
  apply (admin_written_first_verbatim string literal_date
           (mkOptions None None
              (Some (mkFilters (Some ("0x" ++ dq ++ "abc")) None None (Some "1800000000"))))
           (mkFilters (Some ("0x" ++ dq ++ "abc")) None None (Some "1800000000"))
           ("0x" ++ dq ++ "abc"));
    [reflexivity | reflexivity | discriminate].
Defined.

Lemma getGroup_query_injective_witness :
  let options := mkOptions (Date := string) (Some true) None None in
  getGroup_query "42" options = getGroup_query "42" options
  /\ "42" = "42".
Proof.
  cbv zeta. split; [reflexivity|].
  apply (getGroup_query_injective string "42" "42"
           (mkOptions (Some true) None None)).
  reflexivity.
Defined.

Lemma options_matter_through_flags_and_clause_witness :
  let unset := mkOptions (Date := string) None None None in
  let off :=
    mkOptions (Some false) (Some false)
      (Some (mkFilters (Some EmptyString) None None None)) in
  requested (members unset) = requested (members off)
  /\ requested (verifiedProofs unset) = requested (verifiedProofs off)
  /\ filtersQuery literal_date unset = filtersQuery literal_date off
  /\ getGroups_query literal_date unset = getGroups_query literal_date off
  /\ getGroup_query "42" unset = getGroup_query "42" off.
Proof.
  cbv zeta.
  split; [reflexivity|]. split; [reflexivity|]. split; [reflexivity|].
  destruct (options_matter_through_flags_and_clause string literal_date no_groups
              (mkSubgraph "https://example.org/subgraph") "42"
              (mkOptions None None None)
              (mkOptions (Some false) (Some false)
                 (Some (mkFilters (Some EmptyString) None None None)))
              eq_refl eq_refl) as (A & B & _).
  split; [exact (proj1 (A eq_refl)) | exact B].
Defined.

Lemma requests_go_to_resolved_endpoint_witness :
  one_network (with_default "arbitrum" None) = Some "https://example.org/arbitrum"
  /\ exists this,
       constructor one_network None = Some this
       /\ url this = "https://example.org/arbitrum"
       /\ getGroups literal_date no_groups this (mkOptions None None None)
          = getGroups literal_date (only_at "https://example.org/arbitrum") this
              (mkOptions None None None).
Proof.
  split; [reflexivity|].
  destruct (requests_go_to_resolved_endpoint literal_date one_network
              no_groups (only_at "https://example.org/arbitrum")
              None "42" (mkOptions None None None)) as (_ & H).
  destruct (H "https://example.org/arbitrum" eq_refl) as (this & C & U & G & _).
  exists this. split; [exact C|]. split; [exact U|].
  apply G. reflexivity.
Defined.
